(** * skmultilearn.cluster.graphtool

    A shallow embedding of [skmultilearn/cluster/graphtool.py]: the
    [StochasticBlockModel] configuration and state holder and the
    [GraphToolCooccurenceClusterer] built on it.

    Python objects are records, attributes that may be missing are
    options, and a method is a function from the object before the call to
    the outcome of the call together with the object after it, so that what
    an interrupted call has already written stays visible.  The graph-tool
    solver is an external black box: it is a type-class method, and each
    call made to it is a value of type [SolverCall]. *)

From Stdlib Require Import Floats.
From stdpp Require Import base option list gmap strings.

Set Default Proof Using "Type".

(** ** Python values, exceptions and outcomes *)

(** The values a caller can pass as [weight_model] ("string or None" in the
    docstring; nothing checks it). *)
Inductive PyVal : Type :=
  | PyNone
  | PyBool (b : bool)
  | PyInt (z : Z)
  | PyStr (s : string).

(** Python truth value, as tested by [if self.weight_model:]. *)
Definition truthy (v : PyVal) : bool :=
  match v with
  | PyNone => false
  | PyBool b => b
  | PyInt z => negb (Z.eqb z 0)
  | PyStr s => negb (String.eqb s "")
  end.

Inductive Exn : Type :=
  | AttributeError (obj attr : string)
  | IndexError
  | LibraryError (code : nat).

Inductive Result (A : Type) : Type :=
  | Ok (a : A)
  | Raise (e : Exn).
Arguments Ok {A} a.
Arguments Raise {A} e.

(** A method on an object of type [S]: outcome and object afterwards. *)
Definition Method (S A : Type) : Type := S → Result A * S.

#[global] Instance method_ret {S} : MRet (Method S) :=
  λ A a s, (Ok a, s).
#[global] Instance method_bind {S} : MBind (Method S) :=
  λ A B k m s,
    match m s with
    | (Ok a, s') => k a s'
    | (Raise e, s') => (Raise e, s')
    end.

Definition assign {S} (f : S → S) : Method S unit := λ s, (Ok tt, f s).
Definition read {S A} (f : S → A) : Method S A := λ s, (Ok (f s), s).
Definition lift {S A} (r : Result A) : Method S A := λ s, (r, s).
Definition throw {S A} (e : Exn) : Method S A := lift (Raise e).

(** ** graph-tool data *)

(** [gt.Graph]: vertices are [0 .. num_vertices-1], edges are kept in the
    order they were added, an edge's index is its position. *)
Record Graph : Type := mkGraph {
  directed : bool;
  num_vertices : nat;
  edges : list (nat * nat)
}.

Record Edge : Type := mkEdge {
  source : nat;
  target : nat;
  edge_index : nat
}.

(** [g.new_edge_property('double')]: values by edge index. *)
Abbreviation EdgePropertyMap := (gmap nat float).

Definition new_Graph (is_directed : bool) : Graph := mkGraph is_directed 0 [].

Definition add_vertex (n : nat) (g : Graph) : Graph :=
  mkGraph (directed g) (num_vertices g + n) (edges g).

(** [g.add_edge(s, t)] with graph-tool's default [add_missing=True]: an
    endpoint that is not a vertex yet is added, with all below it. *)
Definition add_edge (s t : nat) (g : Graph) : Edge * Graph :=
  (mkEdge s t (length (edges g)),
   mkGraph (directed g)
           (num_vertices g `max` S (s `max` t))
           (edges g ++ [(s, t)])).

Definition new_edge_property (g : Graph) : EdgePropertyMap := ∅.

(** ** The solver boundary *)

(** What [get_overlap_blocks()] returns: the per-vertex block lists and
    three vectors of edge counts; [communities] keeps component 0. *)
Record OverlapBlocks : Type := mkOverlapBlocks {
  bv : list (list nat);
  bc_in : list (list nat);
  bc_out : list (list nat);
  bc_total : list (list nat)
}.

(** One level of a fitted model.  [get_overlap_blocks] exists only on the
    states the solver builds with [overlap=True]. *)
Record BlockState : Type := mkBlockState {
  level_entropy : float;
  get_B : nat;
  get_blocks : list nat;
  get_overlap_blocks : option OverlapBlocks
}.

(** The object held in [_state]: what the flat entry point returns, or the
    hierarchy the nested one returns, finest level first. *)
Inductive SolverState : Type :=
  | FlatState (s : BlockState)
  | NestedState (hierarchy_entropy : float) (get_levels : list BlockState).

Inductive EntryPoint : Type :=
  | minimize_nested_blockmodel_dl
  | minimize_blockmodel_dl.

(** [state_args=dict(recs=[...], rec_types=[...])]. *)
Record StateArgs : Type := mkStateArgs {
  recs : list EdgePropertyMap;
  rec_types : list PyVal
}.

(** One call into graph-tool: the entry point and every argument it is
    given; [state_args = None] when the keyword is not passed. *)
Record SolverCall : Type := mkSolverCall {
  entry : EntryPoint;
  call_graph : Graph;
  deg_corr : bool;
  overlap : bool;
  state_args : option StateArgs
}.

Class GraphTool : Type := {
  solve : SolverCall → Result SolverState
}.

(** ** Attribute access on the duck-typed fitted state

    [_state] holds [None] until the first fit; calling a method that the
    object at hand does not have is an [AttributeError]. *)

Definition type_name (o : option SolverState) : string :=
  match o with
  | None => "NoneType"
  | Some (FlatState _) => "BlockState"
  | Some (NestedState _ _) => "NestedBlockState"
  end.

Definition py_entropy (o : option SolverState) : Result float :=
  match o with
  | Some (FlatState s) => Ok (level_entropy s)
  | Some (NestedState e _) => Ok e
  | None => Raise (AttributeError (type_name o) "entropy")
  end.

Definition py_get_levels (o : option SolverState) : Result (list BlockState) :=
  match o with
  | Some (NestedState _ levels) => Ok levels
  | _ => Raise (AttributeError (type_name o) "get_levels")
  end.

Definition py_get_B (o : option SolverState) : Result nat :=
  match o with
  | Some (FlatState s) => Ok (get_B s)
  | _ => Raise (AttributeError (type_name o) "get_B")
  end.

Definition py_get_blocks (o : option SolverState) : Result (list nat) :=
  match o with
  | Some (FlatState s) => Ok (get_blocks s)
  | _ => Raise (AttributeError (type_name o) "get_blocks")
  end.

Definition py_get_overlap_blocks (o : option SolverState) : Result OverlapBlocks :=
  match o with
  | Some (FlatState s) =>
      match get_overlap_blocks s with
      | Some ob => Ok ob
      | None => Raise (AttributeError (type_name o) "get_overlap_blocks")
      end
  | _ => Raise (AttributeError (type_name o) "get_overlap_blocks")
  end.

(** [l[i]] on a Python list, for an index that is not negative. *)
Definition py_index {A} (l : list A) (i : nat) : Result A :=
  match l !! i with
  | Some a => Ok a
  | None => Raise IndexError
  end.

(** ** helpers *)

(** [list_of_members[community_id].append(vertex_id)]. *)
Definition append_member (list_of_members : list (list nat))
    (community_id vertex_id : nat) : Result (list (list nat)) :=
  match list_of_members !! community_id with
  | Some members => Ok (<[community_id := members ++ [vertex_id]]> list_of_members)
  | None => Raise IndexError
  end.

(** The loop over [enumerate(membership_vector)], from [vertex_id] on. *)
Fixpoint place_members (membership_vector : list nat) (vertex_id : nat)
    (list_of_members : list (list nat)) : Result (list (list nat)) :=
  match membership_vector with
  | [] => Ok list_of_members
  | community_id :: rest =>
      match append_member list_of_members community_id vertex_id with
      | Ok list_of_members' => place_members rest (S vertex_id) list_of_members'
      | Raise e => Raise e
      end
  end.

(** Modelled from the spec: [helpers._membership_to_list_of_communities]
    is imported by graphtool.py and its module is not among the sources.
    The spec's algorithmic note gives it: start from B empty groups, then
    for each vertex index append the index to the group of its block id.
    A block id that is not below B hits Python's list index check. *)
Definition _membership_to_list_of_communities
    (membership_vector : list nat) (size : nat) : Result (list (list nat)) :=
  place_members membership_vector 0 (replicate size []).

(** The inner loop of the overlapping variant: one vertex, all its blocks. *)
Fixpoint place_in_each (community_ids : list nat) (vertex_id : nat)
    (list_of_members : list (list nat)) : Result (list (list nat)) :=
  match community_ids with
  | [] => Ok list_of_members
  | community_id :: rest =>
      match append_member list_of_members community_id vertex_id with
      | Ok list_of_members' => place_in_each rest vertex_id list_of_members'
      | Raise e => Raise e
      end
  end.

Fixpoint place_overlapping (membership_vector : list (list nat)) (vertex_id : nat)
    (list_of_members : list (list nat)) : Result (list (list nat)) :=
  match membership_vector with
  | [] => Ok list_of_members
  | community_ids :: rest =>
      match place_in_each community_ids vertex_id list_of_members with
      | Ok list_of_members' => place_overlapping rest (S vertex_id) list_of_members'
      | Raise e => Raise e
      end
  end.

(** Modelled from the spec:
    [helpers._overlapping_membership_to_list_of_communities], missing from
    the sources like its sibling.  The spec: for each vertex index scan
    its assigned block ids and append the index to each of those groups,
    so that a vertex with k blocks appears in k groups. *)
Definition _overlapping_membership_to_list_of_communities
    (membership_vector : list (list nat)) (size : nat) : Result (list (list nat)) :=
  place_overlapping membership_vector 0 (replicate size []).

(** ** class StochasticBlockModel *)

Module StochasticBlockModel.

Record t : Type := mk {
  nested : bool;
  use_degree_correlation : bool;
  allow_overlap : bool;
  weight_model : PyVal;
  _state : option SolverState
}.

Definition set__state (v : option SolverState) (self : t) : t :=
  mk (nested self) (use_degree_correlation self) (allow_overlap self)
     (weight_model self) v.

Definition __init__ (nested use_degree_correlation allow_overlap : bool)
    (weight_model : PyVal) : t :=
  mk nested use_degree_correlation allow_overlap weight_model None.

Definition model (self : t) : EntryPoint :=
  if nested self then minimize_nested_blockmodel_dl
  else minimize_blockmodel_dl.

(** [fit] returns [self]: the object after the call is the second
    component of the outcome, the value carries nothing more. *)
Definition fit `{GraphTool} (graph : Graph) (weights : EdgePropertyMap)
    : Method t unit :=
  self ← read id;
  if truthy (weight_model self) then
    state ← lift (solve {|
      entry := model self;
      call_graph := graph;
      deg_corr := use_degree_correlation self;
      overlap := allow_overlap self;
      state_args := Some {| recs := [weights];
                            rec_types := [weight_model self] |} |});
    assign (set__state (Some state))
  else
    state ← lift (solve {|
      entry := model self;
      call_graph := graph;
      deg_corr := use_degree_correlation self;
      overlap := allow_overlap self;
      state_args := None |});
    assign (set__state (Some state)).

Definition entropy : Method t float :=
  self ← read id;
  lift (py_entropy (_state self)).

(** The source tests [self.allow_overlap] twice in a row, first to read
    the membership vector and then to pick the helper; nothing changes in
    between, and the two tests are one [if] here. *)
Definition communities : Method t (list (list nat)) :=
  self ← read id;
  lowest_level ←
    (if nested self then
       levels ← lift (py_get_levels (_state self));
       level ← lift (py_index levels 0);
       mret (Some (FlatState level))
     else mret (_state self));
  number_of_communities ← lift (py_get_B lowest_level);
  if allow_overlap self then
    overlap_blocks ← lift (py_get_overlap_blocks lowest_level);
    lift (_overlapping_membership_to_list_of_communities
            (bv overlap_blocks) number_of_communities)
  else
    membership_vector ← lift (py_get_blocks lowest_level);
    lift (_membership_to_list_of_communities
            membership_vector number_of_communities).

End StochasticBlockModel.

(** ** class GraphToolCooccurenceClusterer *)

(** The label matrix [y], sparse, of shape (n_samples, n_labels). *)
Record LabelMatrix : Type := mkLabelMatrix {
  shape : nat * nat;
  nonzero : list (nat * nat)
}.

(** What [graph_builder.transform(y)] returns: a dict from label pairs to
    weights, here as the sequence [items()] iterates over. *)
Abbreviation EdgeMap := (list ((nat * nat) * float)).

Module GraphToolCooccurenceClusterer.

Record t : Type := mk {
  graph_builder : LabelMatrix → Result EdgeMap;
  model : StochasticBlockModel.t;
  weights : option EdgePropertyMap;
  coocurence_graph : option Graph;
  label_count : option nat;
  label_sets : option (list (list nat));
  model_count : option nat
}.

Definition set_model (v : StochasticBlockModel.t) (self : t) : t :=
  mk (graph_builder self) v (weights self) (coocurence_graph self)
     (label_count self) (label_sets self) (model_count self).
Definition set_weights (v : option EdgePropertyMap) (self : t) : t :=
  mk (graph_builder self) (model self) v (coocurence_graph self)
     (label_count self) (label_sets self) (model_count self).
Definition set_coocurence_graph (v : option Graph) (self : t) : t :=
  mk (graph_builder self) (model self) (weights self) v
     (label_count self) (label_sets self) (model_count self).
Definition set_label_count (v : option nat) (self : t) : t :=
  mk (graph_builder self) (model self) (weights self) (coocurence_graph self)
     v (label_sets self) (model_count self).
Definition set_label_sets (v : option (list (list nat))) (self : t) : t :=
  mk (graph_builder self) (model self) (weights self) (coocurence_graph self)
     (label_count self) v (model_count self).
Definition set_model_count (v : option nat) (self : t) : t :=
  mk (graph_builder self) (model self) (weights self) (coocurence_graph self)
     (label_count self) (label_sets self) v.

(** The base class initialiser only keeps the graph builder. *)
Definition __init__ (graph_builder : LabelMatrix → Result EdgeMap)
    (model : StochasticBlockModel.t) : t :=
  mk graph_builder model None None None None None.

(** Reading an attribute that has not been set yet. *)
Definition getattr {A} (field : t → option A) (name : string) : Method t A :=
  self ← read id;
  match field self with
  | Some a => mret a
  | None => throw (AttributeError "GraphToolCooccurenceClusterer" name)
  end.

(** A method of the object in [self.model], run in place. *)
Definition on_model {A} (m : Method StochasticBlockModel.t A) : Method t A :=
  λ self, let '(r, model') := m (model self) in (r, set_model model' self).

(** [self.weights[e] = weight]. *)
Definition store_weight (e : Edge) (weight : float) : Method t unit :=
  property_map ← getattr weights "weights";
  assign (set_weights (Some (<[edge_index e := weight]> property_map))).

(** The loop [for edge, weight in edge_map.items()] on the local [g]. *)
Fixpoint add_edges (items : EdgeMap) (g : Graph) : Method t Graph :=
  match items with
  | [] => mret g
  | (edge, weight) :: rest =>
      let '(e, g') := add_edge edge.1 edge.2 g in
      _ ← store_weight e weight;
      add_edges rest g'
  end.

Definition build_graph_instance (y : LabelMatrix) : Method t Graph :=
  self ← read id;
  edge_map ← lift (graph_builder self y);
  let g := add_vertex (shape y).2 (new_Graph false) in
  _ ← assign (set_weights (Some (new_edge_property g)));
  g ← add_edges edge_map g;
  _ ← assign (set_coocurence_graph (Some g));
  mret g.

(** [np.array] only wraps the list of groups. *)
Definition np_array (groups : list (list nat)) : list (list nat) := groups.

Definition fit_predict `{GraphTool} {FeatureMatrix : Type}
    (X : FeatureMatrix) (y : LabelMatrix) : Method t (list (list nat)) :=
  _ ← assign (set_label_count (Some (shape y).2));
  _ ← build_graph_instance y;
  graph ← getattr coocurence_graph "coocurence_graph";
  property_map ← getattr weights "weights";
  _ ← on_model (StochasticBlockModel.fit graph property_map);
  communities ← on_model StochasticBlockModel.communities;
  _ ← assign (set_label_sets
                (Some (filter (λ community, 0 < length community) communities)));
  groups ← getattr label_sets "label_sets";
  _ ← assign (set_model_count (Some (length groups)));
  groups ← getattr label_sets "label_sets";
  mret (np_array groups).

End GraphToolCooccurenceClusterer.

(** ** Reference description of a group

    The vertices of [membership_vector] (numbered from [vertex_id]) whose
    block is [b], in increasing order.  Used to state what the grouping
    loop computes. *)
Fixpoint vertices_of_block (membership_vector : list nat) (vertex_id b : nat)
    : list nat :=
  match membership_vector with
  | [] => []
  | community_id :: rest =>
      (if decide (community_id = b) then [vertex_id] else [])
        ++ vertices_of_block rest (S vertex_id) b
  end.

(** The outcome of [self._state = <solver result>] in [fit]: the state is
    written when the solver returns, and an error raised by the solver
    leaves the object as it was. *)
Definition store_fit (r : Result SolverState) (self : StochasticBlockModel.t)
    : Result unit * StochasticBlockModel.t :=
  match r with
  | Ok state => (Ok tt, StochasticBlockModel.set__state (Some state) self)
  | Raise e => (Raise e, self)
  end.

(** The four constructor arguments as the object holds them. *)
Definition configuration (self : StochasticBlockModel.t)
    : bool * bool * bool * PyVal :=
  (StochasticBlockModel.nested self,
   StochasticBlockModel.use_degree_correlation self,
   StochasticBlockModel.allow_overlap self,
   StochasticBlockModel.weight_model self).

(** [self] has been fitted and [level] is the state [communities] works
    on: entry 0 of the hierarchy of a nested model, the state itself of a
    flat one. *)
Definition fitted_with (self : StochasticBlockModel.t) (level : BlockState)
    : Prop :=
  if StochasticBlockModel.nested self
  then ∃ e coarser,
         StochasticBlockModel._state self = Some (NestedState e (level :: coarser))
  else StochasticBlockModel._state self = Some (FlatState level).

(** The loop of [build_graph_instance] on the graph and the property map
    alone, without the object that holds the map. *)
Fixpoint edges_added (items : EdgeMap) (g : Graph) (property_map : EdgePropertyMap)
    : Graph * EdgePropertyMap :=
  match items with
  | [] => (g, property_map)
  | (edge, weight) :: rest =>
      let '(e, g') := add_edge edge.1 edge.2 g in
      edges_added rest g' (<[edge_index e := weight]> property_map)
  end.

(** Graph and weights for [L] labels and the builder's [edge_map]. *)
Definition built (L : nat) (edge_map : EdgeMap) : Graph * EdgePropertyMap :=
  edges_added edge_map (add_vertex L (new_Graph false)) ∅.

(** The test of the list comprehension in [fit_predict]. *)
Definition non_empty (communities : list (list nat)) : list (list nat) :=
  filter (λ community, 0 < length community) communities.

(** The solver call [fit] makes for [graph] and [weights]. *)
Definition fit_request (self : StochasticBlockModel.t) (graph : Graph)
    (weights : EdgePropertyMap) : SolverCall :=
  {| entry := StochasticBlockModel.model self;
     call_graph := graph;
     deg_corr := StochasticBlockModel.use_degree_correlation self;
     overlap := StochasticBlockModel.allow_overlap self;
     state_args :=
       if truthy (StochasticBlockModel.weight_model self)
       then Some {| recs := [weights];
                    rec_types := [StochasticBlockModel.weight_model self] |}
       else None |}.

(** The solver call of a model holder on [graph] with the given
    [state_args] keyword ([None]: keyword not passed). *)
Definition solver_call (self : StochasticBlockModel.t) (graph : Graph)
    (extra_state : option StateArgs) : SolverCall :=
  {| entry := if StochasticBlockModel.nested self
              then minimize_nested_blockmodel_dl
              else minimize_blockmodel_dl;
     call_graph := graph;
     deg_corr := StochasticBlockModel.use_degree_correlation self;
     overlap := StochasticBlockModel.allow_overlap self;
     state_args := extra_state |}.

(** ** Sample objects

    Four labels, {0,1} and {2,3} occurring together; a solver stub that
    answers every call with the same result. *)

Definition constant_solver (answer : Result SolverState) : GraphTool :=
  {| solve _ := answer |}.

Definition sample_y : LabelMatrix :=
  {| shape := (3, 4); nonzero := [(0, 0); (0, 1); (1, 2); (1, 3); (2, 0); (2, 1)] |}.

Definition sample_edge_map : EdgeMap := [((0, 1), 2%float); ((2, 3), 1%float)].

Definition sample_level : BlockState :=
  {| level_entropy := 0%float; get_B := 3; get_blocks := [0; 0; 2; 2];
     get_overlap_blocks := None |}.

Definition sample_top_level : BlockState :=
  {| level_entropy := 0%float; get_B := 1; get_blocks := [0; 0; 0];
     get_overlap_blocks := None |}.

Definition sample_model (weight_model : PyVal) : StochasticBlockModel.t :=
  StochasticBlockModel.__init__ false true false weight_model.

Definition sample_clusterer (weight_model : PyVal)
    : GraphToolCooccurenceClusterer.t :=
  GraphToolCooccurenceClusterer.__init__
    (λ _, Ok sample_edge_map) (sample_model weight_model).

Definition sample_fitted_flat : StochasticBlockModel.t :=
  StochasticBlockModel.mk false true false PyNone
    (Some (FlatState sample_level)).

Definition sample_fitted_nested : StochasticBlockModel.t :=
  StochasticBlockModel.mk true true false PyNone
    (Some (NestedState 0%float [sample_level; sample_top_level])).

Definition sample_graph : Graph :=
  {| directed := false; num_vertices := 4; edges := [(0, 1); (2, 3)] |}.

(** The vertices that the keys of [edge_map] call for: one more than the
    largest endpoint, 0 for no key. *)
Definition vertices_needed (edge_map : EdgeMap) : nat :=
  foldr (λ item n, S (item.1.1 `max` item.1.2) `max` n) 0 edge_map.

(** [model_count] is the length of [label_sets], both missing before the
    first successful [fit_predict]. *)
Definition counted (self : GraphToolCooccurenceClusterer.t) : Prop :=
  GraphToolCooccurenceClusterer.model_count self
  = length <$> GraphToolCooccurenceClusterer.label_sets self.

Definition sample_empty_hierarchy : SolverState := NestedState 0%float [].

Definition sample_nested_clusterer : GraphToolCooccurenceClusterer.t :=
  GraphToolCooccurenceClusterer.__init__
    (λ _, Ok sample_edge_map)
    (StochasticBlockModel.__init__ true true false PyNone).

Definition sample_failing_clusterer : GraphToolCooccurenceClusterer.t :=
  GraphToolCooccurenceClusterer.__init__
    (λ _, Raise (LibraryError 2)) (sample_model PyNone).

Definition sample_wide_edge_map : EdgeMap := [((0, 5), 1%float)].

Definition sample_wide_clusterer : GraphToolCooccurenceClusterer.t :=
  GraphToolCooccurenceClusterer.__init__
    (λ _, Ok sample_wide_edge_map) (sample_model PyNone).

Definition sample_reweighted_edge_map : EdgeMap :=
  [((0, 1), 5%float); ((2, 3), 7%float)].

Definition sample_reweighted_clusterer : GraphToolCooccurenceClusterer.t :=
  GraphToolCooccurenceClusterer.__init__
    (λ _, Ok sample_reweighted_edge_map) (sample_model PyNone).

Definition sample_overlap_blocks : OverlapBlocks :=
  {| bv := [[0; 1]; [1]; []]; bc_in := []; bc_out := []; bc_total := [] |}.

Definition sample_overlap_level : BlockState :=
  {| level_entropy := 0%float; get_B := 2; get_blocks := [0; 1; 1; 1];
     get_overlap_blocks := Some sample_overlap_blocks |}.

Definition sample_fitted_overlap : StochasticBlockModel.t :=
  StochasticBlockModel.mk false true true PyNone
    (Some (FlatState sample_overlap_level)).

(** A solver stub that tells whether weights reached it: it fits when
    [state_args] is passed and raises error 0 when it is not. *)
Definition weighted_only_solver : GraphTool :=
  {| solve call :=
       match state_args call with
       | Some _ => Ok (FlatState sample_level)
       | None => Raise (LibraryError 0)
       end |}.

(** Unfolds the sequencing of a method body down to the outcome pair. *)
Ltac run_method :=
  cbv beta delta [mbind mret method_bind method_ret read assign lift throw id];
  cbn beta iota.

(** * Properties *)

(** ** The grouping loop *)

Section Grouping.
Implicit Types (mv : list nat) (groups : list (list nat)).

Lemma append_member_in_range groups b v :
  b < length groups →
  append_member groups b v
  = Ok (imap (λ i g, g ++ if decide (b = i) then [v] else []) groups).
Proof.
  intros Hb. unfold append_member.
  destruct (lookup_lt_is_Some_2 groups b Hb) as [g Hg]. rewrite Hg. f_equal.
  apply list_eq. intros i. rewrite list_lookup_imap.
  destruct (decide (b = i)) as [<-|Hne].
  - rewrite list_lookup_insert_eq by done. by rewrite Hg.
  - rewrite list_lookup_insert_ne by done.
    destruct (groups !! i); simpl; [|done]. by rewrite app_nil_r.
Qed.

Lemma append_member_out_of_range groups b v :
  length groups ≤ b → append_member groups b v = Raise IndexError.
Proof.
  intros Hb. unfold append_member. by rewrite lookup_ge_None_2.
Qed.

Lemma place_members_in_range mv v0 groups :
  Forall (λ b, b < length groups) mv →
  place_members mv v0 groups
  = Ok (imap (λ b g, g ++ vertices_of_block mv v0 b) groups).
Proof.
  revert v0 groups. induction mv as [|c rest IH]; intros v0 groups Hall.
  - simpl. f_equal. apply list_eq. intros i. rewrite list_lookup_imap.
    destruct (groups !! i); simpl; [|done]. by rewrite app_nil_r.
  - apply Forall_cons in Hall as [Hc Hrest]. simpl.
    rewrite append_member_in_range by done.
    rewrite IH by (by rewrite length_imap). f_equal.
    apply list_eq. intros i. rewrite !list_lookup_imap.
    destruct (groups !! i); simpl; [|done]. by rewrite <-(assoc_L (++)).
Qed.

Lemma place_members_length mv v0 groups groups' :
  place_members mv v0 groups = Ok groups' → length groups' = length groups.
Proof.
  revert v0 groups. induction mv as [|c rest IH]; intros v0 groups; simpl.
  - by intros [= ->].
  - unfold append_member. destruct (groups !! c); [|done].
    intros H. apply IH in H. by rewrite length_insert in H.
Qed.

Lemma elem_of_vertices_of_block mv v0 b v :
  v ∈ vertices_of_block mv v0 b ↔ v0 ≤ v ∧ mv !! (v - v0) = Some b.
Proof.
  revert v0. induction mv as [|c rest IH]; intros v0; simpl.
  - rewrite elem_of_nil. split; [done|]. by intros [_ ?].
  - rewrite elem_of_app, IH. split.
    + intros [Hhd|[Hle Hlk]].
      * case_decide as Hc; [|by apply elem_of_nil in Hhd].
        apply list_elem_of_singleton in Hhd as ->.
        replace (v0 - v0) with 0 by lia. simpl. by rewrite Hc.
      * split; [lia|].
        by replace (v - v0) with (S (v - S v0)) by lia.
    + intros [Hle Hlk]. destruct (decide (v = v0)) as [->|Hne].
      * left. replace (v0 - v0) with 0 in Hlk by lia.
        simpl in Hlk. injection Hlk as ->.
        rewrite decide_True by done. by apply list_elem_of_singleton.
      * right. split; [lia|].
        by replace (v - v0) with (S (v - S v0)) in Hlk by lia.
Qed.

Lemma vertices_of_block_NoDup mv v0 b : NoDup (vertices_of_block mv v0 b).
Proof.
  revert v0. induction mv as [|c rest IH]; intros v0; simpl; [constructor|].
  destruct (decide (c = b)); simpl; [|done].
  constructor; [|done]. rewrite elem_of_vertices_of_block. lia.
Qed.

Lemma concat_pointwise_app {A B} (h f : A → list B) (l : list A) :
  concat (map (λ b, h b ++ f b) l) ≡ₚ concat (map h l) ++ concat (map f l).
Proof.
  induction l as [|a l IH]; simpl; [done|]. rewrite IH.
  rewrite <-!(assoc_L (++)). f_equiv.
  rewrite !(assoc_L (++)). f_equiv. apply Permutation_app_comm.
Qed.

Lemma concat_single_hit (c v s n : nat) :
  concat (map (λ b, if decide (c = b) then [v] else []) (seq s n))
  = if decide (s ≤ c < s + n) then [v] else [].
Proof.
  revert s. induction n as [|n IH]; intros s; simpl.
  - case_decide; [lia|done].
  - rewrite IH. repeat case_decide; simpl; try done; lia.
Qed.

Lemma vertices_of_block_partition mv v0 B :
  Forall (λ b, b < B) mv →
  concat (map (vertices_of_block mv v0) (seq 0 B)) ≡ₚ seq v0 (length mv).
Proof.
  revert v0. induction mv as [|c rest IH]; intros v0 Hall; simpl.
  - induction (seq 0 B); simpl; done.
  - apply Forall_cons in Hall as [Hc Hrest].
    rewrite concat_pointwise_app, concat_single_hit, IH by done.
    case_decide; [done|lia].
Qed.

Lemma imap_replicate_nil mv v0 B :
  imap (λ b g, g ++ vertices_of_block mv v0 b) (replicate B [])
  = map (vertices_of_block mv v0) (seq 0 B).
Proof.
  apply list_eq. intros i. rewrite list_lookup_imap, list_lookup_fmap.
  destruct (decide (i < B)).
  - rewrite lookup_replicate_2, lookup_seq_lt by done. done.
  - rewrite (proj1 (lookup_replicate_None B [] i)), lookup_seq_ge by lia. done.
Qed.

(** With every block id below [size] the helper succeeds and group [b]
    is the list of the vertices of block [b]. *)
Lemma membership_to_list_in_range mv size :
  Forall (λ b, b < size) mv →
  _membership_to_list_of_communities mv size
  = Ok (map (vertices_of_block mv 0) (seq 0 size)).
Proof.
  intros Hall. unfold _membership_to_list_of_communities.
  rewrite place_members_in_range by (by rewrite length_replicate).
  by rewrite imap_replicate_nil.
Qed.

End Grouping.

(** ** StochasticBlockModel *)

Section Model.
Context `{GT : GraphTool}.
Implicit Types (self : StochasticBlockModel.t) (graph : Graph)
  (weights : EdgePropertyMap) (level : BlockState).

Lemma fit_unfold self graph weights :
  StochasticBlockModel.fit graph weights self
  = store_fit
      (solve {|
         entry := if StochasticBlockModel.nested self
                  then minimize_nested_blockmodel_dl
                  else minimize_blockmodel_dl;
         call_graph := graph;
         deg_corr := StochasticBlockModel.use_degree_correlation self;
         overlap := StochasticBlockModel.allow_overlap self;
         state_args :=
           if truthy (StochasticBlockModel.weight_model self)
           then Some {| recs := [weights];
                        rec_types := [StochasticBlockModel.weight_model self] |}
           else None |})
      self.
Proof.
  unfold StochasticBlockModel.fit, StochasticBlockModel.model, store_fit.
  run_method.
  destruct (truthy (StochasticBlockModel.weight_model self));
    by destruct (solve _).
Qed.

(** C1 (amended).  [fit] makes one solver call: to the nested entry point
    when [nested] is true and to the flat one otherwise, with the graph
    and with [use_degree_correlation] and [allow_overlap] as they are; the
    result is stored in [_state].  With [weight_model] a non-empty string
    the call carries [state_args] with the weights map as only record and
    that string as only record type.  With [weight_model] [None] it
    carries no [state_args] and the outcome is the same whatever the
    weights map holds.  A [weight_model] that is set but falsy (the empty
    string, 0, [False]) is treated as [None], and one that is truthy
    without being a string (a non-zero number, [True]) as an identifier. *)
Theorem fit_calls_solver self graph weights :
  (StochasticBlockModel.weight_model self = PyNone →
     StochasticBlockModel.fit graph weights self
     = store_fit (solve (solver_call self graph None)) self
     ∧ ∀ weights',
         StochasticBlockModel.fit graph weights' self
         = StochasticBlockModel.fit graph weights self)
  ∧ (∀ identifier,
       StochasticBlockModel.weight_model self = PyStr identifier →
       identifier ≠ "" →
       StochasticBlockModel.fit graph weights self
       = store_fit
           (solve (solver_call self graph
                     (Some {| recs := [weights];
                              rec_types := [PyStr identifier] |})))
           self)
  ∧ (StochasticBlockModel.weight_model self = PyStr ""
     ∨ StochasticBlockModel.weight_model self = PyInt 0
     ∨ StochasticBlockModel.weight_model self = PyBool false →
     StochasticBlockModel.fit graph weights self
     = store_fit (solve (solver_call self graph None)) self)
  ∧ (StochasticBlockModel.weight_model self = PyBool true
     ∨ (∃ z, z ≠ 0%Z ∧ StochasticBlockModel.weight_model self = PyInt z) →
     StochasticBlockModel.fit graph weights self
     = store_fit
         (solve (solver_call self graph
                   (Some {| recs := [weights];
                            rec_types := [StochasticBlockModel.weight_model self] |})))
         self).
Proof.
  unfold solver_call. split; [|split; [|split]].
  - intros Hnone. split.
    + by rewrite fit_unfold, Hnone.
    + intros weights'. by rewrite !fit_unfold, Hnone.
  - intros identifier Hid Hne. rewrite fit_unfold, Hid.
    cbn [truthy]. destruct (String.eqb_spec identifier ""); done.
  - intros [Hw|[Hw|Hw]]; by rewrite fit_unfold, Hw.
  - intros [Hw|(z & Hz & Hw)]; rewrite fit_unfold, Hw; [done|].
    cbn [truthy]. by destruct (Z.eqb_spec z 0).
Qed.

(** C2.  On a freshly constructed model, [entropy()] and
    [communities()] raise: [_state] is [None] and the first method looked
    up on it is missing, so nothing is returned and the object is left
    as it was. *)
Theorem unfitted_queries_fail (nested use_degree_correlation allow_overlap : bool)
    (weight_model : PyVal) :
  let self := StochasticBlockModel.__init__
                nested use_degree_correlation allow_overlap weight_model in
  StochasticBlockModel.entropy self
  = (Raise (AttributeError "NoneType" "entropy"), self)
  ∧ StochasticBlockModel.communities self
    = (Raise (AttributeError "NoneType"
                (if nested then "get_levels" else "get_B")), self).
Proof.
  split; [done|]. unfold StochasticBlockModel.communities. run_method.
  by destruct nested.
Qed.

Lemma entropy_keeps_object self : (StochasticBlockModel.entropy self).2 = self.
Proof. done. Qed.

Lemma communities_keeps_object self :
  (StochasticBlockModel.communities self).2 = self.
Proof.
  unfold StochasticBlockModel.communities. run_method.
  destruct (StochasticBlockModel.nested self),
    (StochasticBlockModel.allow_overlap self); run_method;
    repeat (case_match; simplify_eq; try done).
Qed.

(** C8.  The constructor stores its four arguments; [fit] either leaves
    the object as it was (the solver raised) or replaces [_state] alone,
    so the four configuration fields are the same after it; [entropy]
    and [communities] return the object unchanged. *)
Theorem configuration_is_read_only self graph weights :
  (∀ n d o w, configuration (StochasticBlockModel.__init__ n d o w) = (n, d, o, w))
  ∧ ((StochasticBlockModel.fit graph weights self).2 = self
     ∨ ∃ state, (StochasticBlockModel.fit graph weights self).2
                = StochasticBlockModel.set__state (Some state) self)
  ∧ configuration (StochasticBlockModel.fit graph weights self).2
    = configuration self
  ∧ (StochasticBlockModel.entropy self).2 = self
  ∧ (StochasticBlockModel.communities self).2 = self.
Proof.
  split; [done|]. rewrite fit_unfold. unfold store_fit.
  destruct (solve _) as [state|e]; cbn.
  - split; [right; by exists state|].
    split; [done|]. split; [apply entropy_keeps_object|apply communities_keeps_object].
  - split; [by left|].
    split; [done|]. split; [apply entropy_keeps_object|apply communities_keeps_object].
Qed.

(** C10.  A falsy [weight_model] (the empty string, 0, [False], [None])
    takes the branch without [state_args]: the solver call carries no
    weights, and outcome and fitted state are those of the same model
    holder built with [None], whatever weights maps the two are given. *)
Theorem fit_falsy_identifier_unweighted self graph weights :
  truthy (StochasticBlockModel.weight_model self) = false →
  StochasticBlockModel.fit graph weights self
  = store_fit
      (solve {|
         entry := StochasticBlockModel.model self;
         call_graph := graph;
         deg_corr := StochasticBlockModel.use_degree_correlation self;
         overlap := StochasticBlockModel.allow_overlap self;
         state_args := None |})
      self
  ∧ ∀ weights',
      let unconfigured :=
        StochasticBlockModel.mk
          (StochasticBlockModel.nested self)
          (StochasticBlockModel.use_degree_correlation self)
          (StochasticBlockModel.allow_overlap self)
          PyNone
          (StochasticBlockModel._state self) in
      (StochasticBlockModel.fit graph weights self).1
      = (StochasticBlockModel.fit graph weights' unconfigured).1
      ∧ StochasticBlockModel._state
          (StochasticBlockModel.fit graph weights self).2
        = StochasticBlockModel._state
            (StochasticBlockModel.fit graph weights' unconfigured).2.
Proof.
  intros Hfalsy. rewrite !fit_unfold, Hfalsy. split; [done|].
  intros weights'. cbv zeta. rewrite fit_unfold. cbn.
  unfold store_fit. by destruct (solve _).
Qed.

Lemma communities_of_fitted self level :
  fitted_with self level →
  StochasticBlockModel.communities self
  = (if StochasticBlockModel.allow_overlap self then
       match get_overlap_blocks level with
       | Some overlap_blocks =>
           _overlapping_membership_to_list_of_communities
             (bv overlap_blocks) (get_B level)
       | None => Raise (AttributeError "BlockState" "get_overlap_blocks")
       end
     else _membership_to_list_of_communities (get_blocks level) (get_B level),
     self).
Proof.
  unfold fitted_with, StochasticBlockModel.communities. run_method.
  destruct (StochasticBlockModel.nested self).
  - intros (e & coarser & ->). run_method. cbn.
    destruct (StochasticBlockModel.allow_overlap self); run_method; cbn.
    + destruct (get_overlap_blocks level); [|done].
      by destruct (_overlapping_membership_to_list_of_communities _ _).
    + by destruct (_membership_to_list_of_communities _ _).
  - intros ->. run_method. cbn.
    destruct (StochasticBlockModel.allow_overlap self); run_method; cbn.
    + destruct (get_overlap_blocks level); [|done].
      by destruct (_overlapping_membership_to_list_of_communities _ _).
    + by destruct (_membership_to_list_of_communities _ _).
Qed.

Lemma communities_disjoint_fit self level :
  fitted_with self level →
  StochasticBlockModel.allow_overlap self = false →
  Forall (λ b, b < get_B level) (get_blocks level) →
  StochasticBlockModel.communities self
  = (Ok (map (vertices_of_block (get_blocks level) 0) (seq 0 (get_B level))),
     self).
Proof.
  intros Hfit Hno Hrange.
  rewrite (communities_of_fitted _ _ Hfit), Hno.
  by rewrite membership_to_list_in_range.
Qed.

Lemma lookup_group (mv : list nat) (B b : nat) (g : list nat) :
  map (vertices_of_block mv 0) (seq 0 B) !! b = Some g
  ↔ b < B ∧ g = vertices_of_block mv 0 b.
Proof.
  rewrite list_lookup_fmap. destruct (decide (b < B)) as [Hb|Hb].
  - rewrite lookup_seq_lt by done. cbn. split.
    + by intros [= <-].
    + by intros [_ ->].
  - rewrite lookup_seq_ge by lia. cbn. split; [done|]. intros [? _]. lia.
Qed.

Lemma elem_of_group (mv : list nat) (b v : nat) :
  v ∈ vertices_of_block mv 0 b ↔ mv !! v = Some b.
Proof.
  rewrite elem_of_vertices_of_block. replace (v - 0) with v by lia.
  split; [by intros [_ ?]|]. split; [lia|done].
Qed.

(** C7.  On a fitted model [communities()] works on entry 0 of the
    hierarchy when [nested] is true and on the flat state otherwise
    ([fitted_with]); without overlap it hands that level's block vector
    and block count B to the grouping helper, the object is unchanged,
    and when every block id is below B the result has exactly B groups,
    group [b] holding exactly the vertices whose block is [b]; a block
    without vertices is kept as an empty group. *)
Theorem communities_groups_by_block self level :
  fitted_with self level →
  StochasticBlockModel.allow_overlap self = false →
  StochasticBlockModel.communities self
  = (_membership_to_list_of_communities (get_blocks level) (get_B level), self)
  ∧ (Forall (λ b, b < get_B level) (get_blocks level) →
     ∃ groups,
       StochasticBlockModel.communities self = (Ok groups, self)
       ∧ length groups = get_B level
       ∧ ∀ b, b < get_B level →
           ∃ g, groups !! b = Some g
                ∧ (∀ v, v ∈ g ↔ get_blocks level !! v = Some b)
                ∧ ((∀ v, get_blocks level !! v ≠ Some b) → g = [])).
Proof.
  intros Hfit Hno. split.
  - by rewrite (communities_of_fitted _ _ Hfit), Hno.
  - intros Hrange. eexists. split; [by apply communities_disjoint_fit|].
    split; [by rewrite length_map, length_seq|].
    intros b Hb. exists (vertices_of_block (get_blocks level) 0 b).
    split; [by apply lookup_group|]. split; [apply elem_of_group|].
    intros Hnone. destruct (vertices_of_block _ 0 b) as [|v g] eqn:Hg; [done|].
    exfalso. apply (Hnone v), elem_of_group. rewrite Hg. by left.
Qed.

(** C5.  Without overlap, on a fitted model whose lowest level gives each
    of the L vertices one block id below B, the B groups returned by
    [communities()] together contain every label index 0..L-1 exactly
    once: their concatenation is a permutation of 0..L-1, two different
    groups share no element, and every label index lies in one group
    and in no other. *)
Theorem communities_partition self level (L : nat) :
  fitted_with self level →
  StochasticBlockModel.allow_overlap self = false →
  length (get_blocks level) = L →
  Forall (λ b, b < get_B level) (get_blocks level) →
  ∃ groups,
    StochasticBlockModel.communities self = (Ok groups, self)
    ∧ length groups = get_B level
    ∧ concat groups ≡ₚ seq 0 L
    ∧ (∀ i j gi gj v,
         groups !! i = Some gi → groups !! j = Some gj →
         v ∈ gi → v ∈ gj → i = j)
    ∧ (∀ v, v < L ↔ ∃ b g, groups !! b = Some g ∧ v ∈ g).
Proof.
  intros Hfit Hno HL Hrange. eexists.
  split; [by apply communities_disjoint_fit|].
  split; [by rewrite length_map, length_seq|].
  split; [by rewrite vertices_of_block_partition, HL|].
  split.
  - intros i j gi gj v [_ ->]%lookup_group [_ ->]%lookup_group
      Hi%elem_of_group Hj%elem_of_group. congruence.
  - intros v. split.
    + intros Hv. rewrite <-HL in Hv.
      destruct (lookup_lt_is_Some_2 _ _ Hv) as [b Hb].
      exists b, (vertices_of_block (get_blocks level) 0 b).
      split; [|by apply elem_of_group].
      apply lookup_group. split; [|done].
      by eapply (proj1 (Forall_lookup _ _) Hrange).
    + intros (b & g & [_ ->]%lookup_group & Hv%elem_of_group).
      rewrite <-HL. by eapply lookup_lt_Some.
Qed.

End Model.

(** ** GraphToolCooccurenceClusterer *)

Section Clusterer.
Import GraphToolCooccurenceClusterer.
Context `{GT : GraphTool}.
Implicit Types (self : GraphToolCooccurenceClusterer.t) (y : LabelMatrix)
  (g : Graph) (property_map : EdgePropertyMap) (edge_map items : EdgeMap).

Lemma add_edges_run items g self property_map :
  weights self = Some property_map →
  add_edges items g self
  = (Ok (edges_added items g property_map).1,
     set_weights (Some (edges_added items g property_map).2) self).
Proof.
  revert g self property_map.
  induction items as [|[edge weight] rest IH]; intros g self pm Hpm.
  - cbn. run_method. destruct self; cbn in *. by rewrite Hpm.
  - cbn [add_edges edges_added add_edge]. unfold store_weight, getattr.
    run_method. rewrite Hpm. run_method.
    by rewrite (IH _ _ (<[length (edges g) := weight]> pm)).
Qed.

Lemma edges_added_graph items g property_map :
  directed (edges_added items g property_map).1 = directed g
  ∧ edges (edges_added items g property_map).1 = edges g ++ items.*1
  ∧ (Forall (λ item, item.1.1 < num_vertices g ∧ item.1.2 < num_vertices g) items →
     num_vertices (edges_added items g property_map).1 = num_vertices g).
Proof.
  revert g property_map.
  induction items as [|[[s t] weight] rest IH]; intros g pm.
  - cbn. by rewrite app_nil_r.
  - cbn [edges_added add_edge fst snd edge_index].
    destruct (IH (mkGraph (directed g) (num_vertices g `max` S (s `max` t))
                          (edges g ++ [(s, t)]))
                 (<[length (edges g) := weight]> pm)) as (Hd & He & Hn).
    cbn in Hd, He, Hn. split; [done|]. split.
    { rewrite He. cbn. by rewrite <-(assoc_L (++)). }
    intros [[Hs Ht] Hrest]%Forall_cons. cbn in Hs, Ht.
    assert (num_vertices g `max` S (s `max` t) = num_vertices g) as Hmax by lia.
    rewrite Hmax in Hn |- *. by apply Hn.
Qed.

Lemma edges_added_weights items g property_map :
  (∀ k item, items !! k = Some item →
     (edges_added items g property_map).2 !! (length (edges g) + k)
     = Some item.2)
  ∧ (∀ i, ¬ (length (edges g) ≤ i < length (edges g) + length items) →
       (edges_added items g property_map).2 !! i = property_map !! i).
Proof.
  revert g property_map.
  induction items as [|[[s t] weight] rest IH]; intros g pm.
  - split; [by intros k item|done].
  - cbn [edges_added add_edge fst snd edge_index].
    destruct (IH (mkGraph (directed g) (num_vertices g `max` S (s `max` t))
                          (edges g ++ [(s, t)]))
                 (<[length (edges g) := weight]> pm)) as [Hin Hout].
    cbn [edges] in Hin, Hout. rewrite length_app in Hin, Hout. cbn in Hin, Hout.
    split.
    + intros [|k] item Hk.
      * injection Hk as <-. rewrite Hout by lia.
        replace (length (edges g) + 0) with (length (edges g)) by lia.
        by rewrite lookup_insert_eq.
      * replace (length (edges g) + S k) with (length (edges g) + 1 + k) by lia.
        by apply Hin.
    + intros i Hi. cbn in Hi. rewrite Hout by lia.
      apply lookup_insert_ne. lia.
Qed.

Lemma build_graph_instance_unfold y self :
  build_graph_instance y self
  = match graph_builder self y with
    | Ok edge_map =>
        (Ok (built (shape y).2 edge_map).1,
         set_coocurence_graph (Some (built (shape y).2 edge_map).1)
           (set_weights (Some (built (shape y).2 edge_map).2) self))
    | Raise e => (Raise e, self)
    end.
Proof.
  unfold build_graph_instance. run_method.
  destruct (graph_builder self y) as [edge_map|e]; [|done].
  rewrite (add_edges_run _ _ _ ∅) by done. done.
Qed.

(** C3.  When the builder returns [edge_map] for a label matrix with L
    columns, its keys being label indices (below L),
    [build_graph_instance] returns an undirected graph with L vertices
    whose edges are the keys of [edge_map], one edge per entry and in the
    entries' order, and the weights map it leaves in [self.weights] holds
    at each edge's index the weight of that entry and nothing else; the
    graph is also stored in [self.coocurence_graph].  With an empty
    [edge_map] the graph has L vertices and no edge. *)
Theorem build_graph_instance_graph y self edge_map :
  graph_builder self y = Ok edge_map →
  Forall (λ item, item.1.1 < (shape y).2 ∧ item.1.2 < (shape y).2) edge_map →
  ∃ g property_map,
    build_graph_instance y self
    = (Ok g, set_coocurence_graph (Some g)
               (set_weights (Some property_map) self))
    ∧ directed g = false
    ∧ num_vertices g = (shape y).2
    ∧ edges g = edge_map.*1
    ∧ length (edges g) = length edge_map
    ∧ (∀ i edge weight,
         edge_map !! i = Some (edge, weight) →
         edges g !! i = Some edge ∧ property_map !! i = Some weight)
    ∧ (∀ i, length edge_map ≤ i → property_map !! i = None)
    ∧ (edge_map = [] →
       g = {| directed := false; num_vertices := (shape y).2; edges := [] |}).
Proof.
  intros Hmap Hrange.
  exists (built (shape y).2 edge_map).1, (built (shape y).2 edge_map).2.
  rewrite build_graph_instance_unfold, Hmap. unfold built.
  destruct (edges_added_graph edge_map (add_vertex (shape y).2 (new_Graph false)) ∅)
    as (Hd & He & Hn).
  destruct (edges_added_weights edge_map (add_vertex (shape y).2 (new_Graph false)) ∅)
    as [Hin Hout].
  cbn in Hd, He, Hn, Hin, Hout.
  split; [done|]. split; [done|]. split; [by apply Hn|].
  split; [done|]. split; [by rewrite He, length_fmap|]. split.
  - intros i edge weight Hi. split.
    + by rewrite He, list_lookup_fmap, Hi.
    + by rewrite (Hin i _ Hi).
  - split; [|by intros ->].
    intros i Hi. rewrite Hout by lia. apply lookup_empty.
Qed.

Lemma fit_predict_unfold {FeatureMatrix} (X : FeatureMatrix) y self :
  fit_predict X y self
  = let counted := set_label_count (Some (shape y).2) self in
    match graph_builder self y with
    | Raise e => (Raise e, counted)
    | Ok edge_map =>
        let graph := (built (shape y).2 edge_map).1 in
        let property_map := (built (shape y).2 edge_map).2 in
        let with_graph :=
          set_coocurence_graph (Some graph)
            (set_weights (Some property_map) counted) in
        let fitted :=
          set_model (StochasticBlockModel.fit graph property_map (model self)).2
            with_graph in
        match (StochasticBlockModel.fit graph property_map (model self)).1 with
        | Raise e => (Raise e, fitted)
        | Ok _ =>
            match (StochasticBlockModel.communities (model fitted)).1 with
            | Raise e => (Raise e, fitted)
            | Ok communities =>
                (Ok (non_empty communities),
                 set_model_count (Some (length (non_empty communities)))
                   (set_label_sets (Some (non_empty communities)) fitted))
            end
        end
    end.
Proof.
  unfold fit_predict. run_method. rewrite build_graph_instance_unfold. cbn.
  destruct (graph_builder self y) as [edge_map|e]; [|done].
  unfold getattr, on_model. run_method. cbn.
  destruct (StochasticBlockModel.fit _ _ (model self)) as [[[]|e] fitted_model];
    [|done]. cbn.
  pose proof (communities_keeps_object fitted_model) as Hkeep.
  destruct (StochasticBlockModel.communities fitted_model) as [[raw|e] m'].
  - cbn in Hkeep. subst m'. done.
  - cbn in Hkeep. subst m'. done.
Qed.

(** C4.  When [fit_predict] returns, what it returns is the list of
    communities of the fitted model holder with the empty groups taken
    out and nothing else changed: the same groups in the same order,
    each of length at least 1; [label_sets] holds that list and
    [model_count] its length. *)
Theorem fit_predict_keeps_non_empty {FeatureMatrix} (X : FeatureMatrix)
    y self result self' :
  fit_predict X y self = (Ok result, self') →
  ∃ communities,
    StochasticBlockModel.communities (model self')
    = (Ok communities, model self')
    ∧ result = filter (λ community, 0 < length community) communities
    ∧ result `sublist_of` communities
    ∧ (∀ community, community ∈ result ↔ community ∈ communities ∧ community ≠ [])
    ∧ Forall (λ community, 1 ≤ length community) result
    ∧ label_sets self' = Some result
    ∧ model_count self' = Some (length result).
Proof.
  rewrite fit_predict_unfold. cbv zeta.
  destruct (graph_builder self y) as [edge_map|e]; [|done].
  destruct (StochasticBlockModel.fit _ _ (model self)) as [[[]|e] fitted_model];
    [|done]. cbn [fst snd model set_model].
  pose proof (communities_keeps_object fitted_model) as Hkeep.
  destruct (StochasticBlockModel.communities fitted_model) as [[raw|e] m']
    eqn:Hcomm; [|done]. cbn in Hkeep. subst m'. cbn [fst].
  intros [= <- <-]. exists raw. cbn [model label_sets model_count
    set_model_count set_label_sets set_model].
  split; [done|]. split; [done|]. split; [apply sublist_filter|].
  split.
  { intros community. unfold non_empty. rewrite list_elem_of_filter.
    destruct community as [|v community]; cbn.
    - split; [lia|]. by intros [_ ?].
    - split; [by intros [_ ?]|]. intros [? _]. split; [lia|done]. }
  split; [|done].
  apply Forall_forall. intros community [Hlen _]%list_elem_of_filter. lia.
Qed.

(** C6.  The feature matrix plays no part: whatever is passed as [X],
    of whatever type, the outcome of [fit_predict] and the clusterer
    after the call are the same. *)
Theorem fit_predict_ignores_features {FeatureMatrix1 FeatureMatrix2}
    (X1 : FeatureMatrix1) (X2 : FeatureMatrix2) y self :
  fit_predict X1 y self = fit_predict X2 y self.
Proof. reflexivity. Qed.

(** C9 (amended).  An error raised by the graph builder or by the solver
    leaves [fit_predict] as that same error, with nothing returned and
    no second attempt.  [label_sets] and [model_count] keep the values
    they had before a failed call.  [label_count] is already written
    when the builder raises, and when the solver raises the graph and
    the weights map of the failed call are in [coocurence_graph] and
    [weights] as well; the model holder is then as before the call. *)
Theorem fit_predict_propagates_errors {FeatureMatrix} (X : FeatureMatrix)
    y self :
  (∀ e, graph_builder self y = Raise e →
     fit_predict X y self
     = (Raise e, set_label_count (Some (shape y).2) self))
  ∧ (∀ edge_map e,
       graph_builder self y = Ok edge_map →
       solve (fit_request (model self) (built (shape y).2 edge_map).1
                (built (shape y).2 edge_map).2) = Raise e →
       fit_predict X y self
       = (Raise e,
          set_coocurence_graph (Some (built (shape y).2 edge_map).1)
            (set_weights (Some (built (shape y).2 edge_map).2)
               (set_label_count (Some (shape y).2) self))))
  ∧ (∀ e self',
       fit_predict X y self = (Raise e, self') →
       label_sets self' = label_sets self
       ∧ model_count self' = model_count self).
Proof.
  rewrite fit_predict_unfold. cbv zeta. split; [|split].
  - by intros e ->.
  - intros edge_map e -> Hfit. rewrite fit_unfold.
    change (solve _) with
      (solve (fit_request (model self) (built (shape y).2 edge_map).1
                (built (shape y).2 edge_map).2)).
    rewrite Hfit. cbn. by destruct self.
  - intros e self'.
    destruct (graph_builder self y) as [edge_map|e0]; [|by intros [= _ <-]].
    destruct (StochasticBlockModel.fit _ _ (model self)) as [[[]|e1] fitted_model];
      [|by intros [= _ <-]]. cbn [fst snd model set_model].
    destruct (StochasticBlockModel.communities fitted_model) as [[raw|e2] m'];
      [done|]. by intros [= _ <-].
Qed.

End Clusterer.

(** ** The statements at the sample objects *)

Section Samples.
Import GraphToolCooccurenceClusterer.

Example group_by_block :
  _membership_to_list_of_communities [0; 0; 2; 2] 3 = Ok [[0; 1]; []; [2; 3]].
Proof. reflexivity. Qed.

Example group_by_block_out_of_range :
  _membership_to_list_of_communities [0; 3] 3 = Raise IndexError.
Proof. reflexivity. Qed.

Example group_overlapping :
  _overlapping_membership_to_list_of_communities [[0; 1]; [1]; []] 3
  = Ok [[0]; [0; 1]; []].
Proof. reflexivity. Qed.

Example truthy_values :
  truthy PyNone = false ∧ truthy (PyStr "") = false ∧ truthy (PyInt 0) = false
  ∧ truthy (PyBool false) = false ∧ truthy (PyStr "real-exponential") = true.
Proof. by repeat split. Qed.

Example weighted_fit_request :
  state_args (fit_request (sample_model (PyStr "real-exponential")) sample_graph
                (<[0 := 2%float]> ∅))
  = Some {| recs := [<[0 := 2%float]> ∅];
            rec_types := [PyStr "real-exponential"] |}.
Proof. reflexivity. Qed.

Example two_pairs_end_to_end :
  (@fit_predict (constant_solver (Ok (FlatState sample_level))) unit tt
     sample_y (sample_clusterer PyNone)).1
  = Ok [[0; 1]; [2; 3]].
Proof. by vm_compute. Qed.

Example entropy_of_fitted :
  StochasticBlockModel.entropy sample_fitted_nested
  = (Ok 0%float, sample_fitted_nested).
Proof. reflexivity. Qed.

Lemma fit_calls_solver_witness :
  @StochasticBlockModel.fit weighted_only_solver sample_graph
    (<[0 := 2%float]> ∅) (sample_model (PyStr "real-exponential"))
  = store_fit
      (@solve weighted_only_solver
         (solver_call (sample_model (PyStr "real-exponential")) sample_graph
            (Some {| recs := [<[0 := 2%float]> ∅];
                     rec_types := [PyStr "real-exponential"] |})))
      (sample_model (PyStr "real-exponential")).
Proof.
  apply (proj1 (proj2 (@fit_calls_solver weighted_only_solver
                         (sample_model (PyStr "real-exponential"))
                         sample_graph (<[0 := 2%float]> ∅)))
           "real-exponential" eq_refl).
  discriminate.
Defined.

(** C1 as stated fails: a model holder configured with the empty string
    has a weight model that is not [None], and its [fit] passes no
    [state_args] to any solver; the stub that tells the two calls apart
    reports the call without weights. *)
Lemma fit_empty_identifier_passes_no_weights :
  let self := sample_model (PyStr "") in
  StochasticBlockModel.weight_model self ≠ PyNone
  ∧ (∀ (GT : GraphTool) graph weights,
       StochasticBlockModel.fit graph weights self
       = store_fit (solve (solver_call self graph None)) self)
  ∧ @StochasticBlockModel.fit weighted_only_solver sample_graph
      (<[0 := 2%float]> ∅) self
    = (Raise (LibraryError 0), self)
  ∧ @StochasticBlockModel.fit weighted_only_solver sample_graph
      (<[0 := 2%float]> ∅) (sample_model (PyStr "real-exponential"))
    = (Ok tt,
       StochasticBlockModel.set__state (Some (FlatState sample_level))
         (sample_model (PyStr "real-exponential"))).
Proof.
  cbv zeta. split; [done|]. split; [|split; reflexivity].
  intros GT graph weights. by rewrite fit_unfold.
Qed.

Lemma fit_falsy_identifier_unweighted_witness :
  truthy (PyStr "") = false
  ∧ @StochasticBlockModel.fit (constant_solver (Ok (FlatState sample_level)))
      sample_graph (<[0 := 2%float]> ∅) (sample_model (PyStr ""))
    = store_fit (Ok (FlatState sample_level)) (sample_model (PyStr "")).
Proof.
  split; [reflexivity|].
  apply (proj1 (@fit_falsy_identifier_unweighted
                  (constant_solver (Ok (FlatState sample_level)))
                  (sample_model (PyStr "")) sample_graph
                  (<[0 := 2%float]> ∅) eq_refl)).
Defined.

Lemma build_graph_instance_graph_witness :
  ∃ g property_map,
    build_graph_instance sample_y (sample_clusterer PyNone)
    = (Ok g, set_coocurence_graph (Some g)
               (set_weights (Some property_map) (sample_clusterer PyNone)))
    ∧ directed g = false
    ∧ num_vertices g = 4
    ∧ edges g = [(0, 1); (2, 3)]
    ∧ length (edges g) = 2
    ∧ (∀ i edge weight,
         sample_edge_map !! i = Some (edge, weight) →
         edges g !! i = Some edge ∧ property_map !! i = Some weight)
    ∧ (∀ i, 2 ≤ i → property_map !! i = None)
    ∧ (sample_edge_map = [] →
       g = {| directed := false; num_vertices := 4; edges := [] |}).
Proof.
  apply (build_graph_instance_graph sample_y (sample_clusterer PyNone)
           sample_edge_map); [reflexivity|].
  repeat (constructor; [split; cbn; lia|]). constructor.
Defined.

Lemma communities_groups_by_block_witness :
  StochasticBlockModel.communities sample_fitted_nested
  = (Ok [[0; 1]; []; [2; 3]], sample_fitted_nested).
Proof.
  apply (proj1 (communities_groups_by_block sample_fitted_nested sample_level
                  (ex_intro _ 0%float (ex_intro _ [sample_top_level] eq_refl))
                  eq_refl)).
Defined.

Lemma communities_partition_witness :
  ∃ groups,
    StochasticBlockModel.communities sample_fitted_flat = (Ok groups, sample_fitted_flat)
    ∧ length groups = 3
    ∧ concat groups ≡ₚ [0; 1; 2; 3]
    ∧ (∀ i j gi gj v,
         groups !! i = Some gi → groups !! j = Some gj →
         v ∈ gi → v ∈ gj → i = j)
    ∧ (∀ v, v < 4 ↔ ∃ b g, groups !! b = Some g ∧ v ∈ g).
Proof.
  apply (communities_partition sample_fitted_flat sample_level 4);
    [reflexivity|reflexivity|reflexivity|].
  repeat (constructor; [cbn; lia|]). constructor.
Defined.

Lemma fit_predict_keeps_non_empty_witness :
  ∃ communities,
    StochasticBlockModel.communities
      (model (@fit_predict (constant_solver (Ok (FlatState sample_level)))
                unit tt sample_y (sample_clusterer PyNone)).2)
    = (Ok communities,
       model (@fit_predict (constant_solver (Ok (FlatState sample_level)))
                unit tt sample_y (sample_clusterer PyNone)).2)
    ∧ [[0; 1]; [2; 3]] = filter (λ community, 0 < length community) communities
    ∧ [[0; 1]; [2; 3]] `sublist_of` communities
    ∧ (∀ community,
         community ∈ [[0; 1]; [2; 3]]
         ↔ community ∈ communities ∧ community ≠ [])
    ∧ Forall (λ community, 1 ≤ length community) [[0; 1]; [2; 3]]
    ∧ label_sets (@fit_predict (constant_solver (Ok (FlatState sample_level)))
                    unit tt sample_y (sample_clusterer PyNone)).2
      = Some [[0; 1]; [2; 3]]
    ∧ model_count (@fit_predict (constant_solver (Ok (FlatState sample_level)))
                     unit tt sample_y (sample_clusterer PyNone)).2
      = Some (length [[0; 1]; [2; 3]]).
Proof.
  apply (@fit_predict_keeps_non_empty
           (constant_solver (Ok (FlatState sample_level)))
           unit tt sample_y (sample_clusterer PyNone)).
  vm_compute. reflexivity.
Defined.

Lemma fit_predict_propagates_errors_witness :
  @fit_predict (constant_solver (Raise (LibraryError 1))) unit tt sample_y
    (sample_clusterer PyNone)
  = (Raise (LibraryError 1),
     set_coocurence_graph (Some (built 4 sample_edge_map).1)
       (set_weights (Some (built 4 sample_edge_map).2)
          (set_label_count (Some 4) (sample_clusterer PyNone)))).
Proof.
  apply (proj1 (proj2 (@fit_predict_propagates_errors
                         (constant_solver (Raise (LibraryError 1)))
                         unit tt sample_y (sample_clusterer PyNone)))
           sample_edge_map (LibraryError 1));
    reflexivity.
Defined.

(** C9 as stated fails: the solver raises during the first
    [fit_predict] of a new clusterer; the error comes back as it is, and
    the clusterer is not as before the call: it now holds the label
    count, the graph and the weights map of the failed call. *)
Lemma failed_fit_predict_leaves_graph :
  let before := sample_clusterer PyNone in
  let outcome :=
    @fit_predict (constant_solver (Raise (LibraryError 1))) unit tt
      sample_y before in
  outcome.1 = Raise (LibraryError 1)
  ∧ (label_count before = None ∧ coocurence_graph before = None
     ∧ weights before = None)
  ∧ label_count outcome.2 = Some 4
  ∧ coocurence_graph outcome.2 = Some sample_graph
  ∧ weights outcome.2 = Some (<[1 := 1%float]> (<[0 := 2%float]> ∅))
  ∧ outcome.2 ≠ before.
Proof.
  cbv zeta. split; [by vm_compute|]. split; [done|].
  split; [by vm_compute|]. split; [by vm_compute|]. split; [by vm_compute|].
  intros Heq. apply (f_equal label_count) in Heq. vm_compute in Heq. done.
Qed.

End Samples.

(** * Further properties of the module *)

(** ** StochasticBlockModel.fit on a model that was fitted before *)

Section Refit.
Context `{GT : GraphTool}.
Implicit Types (self : StochasticBlockModel.t) (graph : Graph)
  (weights : EdgePropertyMap).

Lemma fit_unfold_request self graph weights :
  StochasticBlockModel.fit graph weights self
  = store_fit (solve (fit_request self graph weights)) self.
Proof. apply fit_unfold. Qed.

(** X1.  [fit] does not read the state of an earlier fit.  When the solver
    returns, the new state takes the place of whatever [_state] held; when
    the solver raises, the assignment does not happen and the earlier
    state is still there. *)
Theorem fit_overwrites_state self previous graph weights :
  (∀ state,
     solve (fit_request self graph weights) = Ok state →
     StochasticBlockModel.fit graph weights
       (StochasticBlockModel.set__state previous self)
     = (Ok tt, StochasticBlockModel.set__state (Some state) self))
  ∧ (∀ e,
       solve (fit_request self graph weights) = Raise e →
       StochasticBlockModel.fit graph weights
         (StochasticBlockModel.set__state previous self)
       = (Raise e, StochasticBlockModel.set__state previous self)).
Proof.
  split.
  - intros state Hsolve. rewrite fit_unfold_request.
    change (fit_request (StochasticBlockModel.set__state previous self) graph weights)
      with (fit_request self graph weights).
    by rewrite Hsolve.
  - intros e Hsolve. rewrite fit_unfold_request.
    change (fit_request (StochasticBlockModel.set__state previous self) graph weights)
      with (fit_request self graph weights).
    by rewrite Hsolve.
Qed.

End Refit.

(** ** build_graph_instance on any edge map *)

Section Building.
Import GraphToolCooccurenceClusterer.
Implicit Types (self : GraphToolCooccurenceClusterer.t) (y : LabelMatrix)
  (g : Graph) (property_map : EdgePropertyMap) (edge_map items : EdgeMap).

Lemma edges_added_keys_only items items' g property_map property_map' :
  items.*1 = items'.*1 →
  (edges_added items g property_map).1 = (edges_added items' g property_map').1.
Proof.
  revert items' g property_map property_map'.
  induction items as [|[edge weight] rest IH];
    intros [|[edge' weight'] rest'] g pm pm' Hkeys; try done.
  injection Hkeys as -> Hrest. cbn [edges_added add_edge].
  by apply IH.
Qed.

Lemma vertices_needed_cons (s t : nat) (weight : float) items :
  vertices_needed ((s, t, weight) :: items)
  = S (s `max` t) `max` vertices_needed items.
Proof. reflexivity. Qed.

Lemma edges_added_vertices items g property_map :
  num_vertices (edges_added items g property_map).1
  = num_vertices g `max` vertices_needed items.
Proof.
  revert g property_map. induction items as [|[[s t] weight] rest IH];
    intros g pm.
  - cbn [edges_added fst vertices_needed foldr]. lia.
  - cbn [edges_added add_edge fst snd]. rewrite IH.
    rewrite vertices_needed_cons. cbn [num_vertices]. lia.
Qed.

Lemma vertices_needed_bounds items :
  Forall (λ edge, edge.1 < vertices_needed items ∧ edge.2 < vertices_needed items)
    items.*1.
Proof.
  induction items as [|[[s t] weight] rest IH]; [constructor|].
  rewrite vertices_needed_cons, fmap_cons.
  constructor; [cbn [fst snd]; lia|].
  eapply Forall_impl; [exact IH|]. intros [s' t']. cbn [fst snd]. lia.
Qed.

Lemma built_lookup (L : nat) edge_map (i : nat) :
  edges (built L edge_map).1 !! i = fst <$> edge_map !! i
  ∧ (built L edge_map).2 !! i = snd <$> edge_map !! i.
Proof.
  unfold built.
  destruct (edges_added_graph edge_map (add_vertex L (new_Graph false)) ∅)
    as (_ & He & _).
  destruct (edges_added_weights edge_map (add_vertex L (new_Graph false)) ∅)
    as [Hin Hout].
  cbn in He, Hin, Hout. split.
  - by rewrite He, list_lookup_fmap.
  - destruct (edge_map !! i) as [item|] eqn:Hi.
    + by rewrite (Hin i item Hi).
    + rewrite Hout; [apply lookup_empty|].
      apply lookup_ge_None in Hi. lia.
Qed.

(** X2.  [build_graph_instance] writes [weights] and [coocurence_graph]
    and no other attribute, and when the graph builder raises it writes
    nothing at all: the error comes back and the object, with the graph
    and weights of an earlier call, is as before. *)
Theorem build_graph_instance_frame y self :
  (∀ e, graph_builder self y = Raise e →
     build_graph_instance y self = (Raise e, self))
  ∧ graph_builder (build_graph_instance y self).2 = graph_builder self
  ∧ model (build_graph_instance y self).2 = model self
  ∧ label_count (build_graph_instance y self).2 = label_count self
  ∧ label_sets (build_graph_instance y self).2 = label_sets self
  ∧ model_count (build_graph_instance y self).2 = model_count self.
Proof.
  rewrite build_graph_instance_unfold.
  destruct (graph_builder self y) as [edge_map|e0]; cbn.
  - by repeat split.
  - repeat split; try done. by intros e [= ->].
Qed.

(** X3.  Whatever keys the edge map has, in range or not, the graph and
    the weights map that [build_graph_instance] stores go together: edge
    number i of the graph is the key of entry i of the map and weight
    number i is its value, so there are as many edges as entries and
    exactly the edges have a weight.  The returned graph is the stored
    one and is undirected. *)
Theorem build_graph_instance_weights_follow_edges y self edge_map :
  graph_builder self y = Ok edge_map →
  ∃ g property_map,
    (build_graph_instance y self).1 = Ok g
    ∧ coocurence_graph (build_graph_instance y self).2 = Some g
    ∧ weights (build_graph_instance y self).2 = Some property_map
    ∧ directed g = false
    ∧ length (edges g) = length edge_map
    ∧ (∀ i, edges g !! i = fst <$> edge_map !! i)
    ∧ (∀ i, property_map !! i = snd <$> edge_map !! i)
    ∧ (∀ i, is_Some (property_map !! i) ↔ i < length (edges g)).
Proof.
  intros Hmap. rewrite build_graph_instance_unfold, Hmap. cbn.
  exists (built (shape y).2 edge_map).1, (built (shape y).2 edge_map).2.
  assert (length (edges (built (shape y).2 edge_map).1) = length edge_map) as Hlen.
  { unfold built.
    destruct (edges_added_graph edge_map (add_vertex (shape y).2 (new_Graph false)) ∅)
      as (_ & He & _).
    cbn in He. by rewrite He, length_fmap. }
  split; [done|]. split; [done|]. split; [done|]. split.
  { unfold built.
    by destruct (edges_added_graph edge_map
                   (add_vertex (shape y).2 (new_Graph false)) ∅) as (-> & _). }
  split; [done|]. split; [intros i; apply built_lookup|].
  split; [intros i; apply built_lookup|].
  intros i. rewrite (proj2 (built_lookup (shape y).2 edge_map i)), Hlen.
  rewrite <-lookup_lt_is_Some. by rewrite fmap_is_Some.
Qed.

(** X4.  The graph starts with one vertex per label column and every
    endpoint that is not a vertex yet makes the graph grow: the vertex
    count is the larger of the column count and one more than the largest
    endpoint among the keys.  Every edge of the result joins two of its
    vertices, and with keys below the column count there are exactly as
    many vertices as columns. *)
Theorem build_graph_instance_vertex_count y self edge_map :
  graph_builder self y = Ok edge_map →
  ∃ g,
    (build_graph_instance y self).1 = Ok g
    ∧ num_vertices g = (shape y).2 `max` vertices_needed edge_map
    ∧ (shape y).2 ≤ num_vertices g
    ∧ Forall (λ edge, edge.1 < num_vertices g ∧ edge.2 < num_vertices g)
        (edges g)
    ∧ (vertices_needed edge_map ≤ (shape y).2 → num_vertices g = (shape y).2).
Proof.
  intros Hmap. rewrite build_graph_instance_unfold, Hmap. cbn.
  exists (built (shape y).2 edge_map).1. split; [done|].
  assert (num_vertices (built (shape y).2 edge_map).1
          = (shape y).2 `max` vertices_needed edge_map) as Hn.
  { unfold built. by rewrite edges_added_vertices. }
  split; [done|]. split; [lia|]. split; [|lia].
  assert (edges (built (shape y).2 edge_map).1 = edge_map.*1) as He.
  { unfold built.
    by destruct (edges_added_graph edge_map
                   (add_vertex (shape y).2 (new_Graph false)) ∅) as (_ & -> & _). }
  rewrite He, Hn.
  eapply Forall_impl; [apply vertices_needed_bounds|].
  intros [s t]. cbn. lia.
Qed.

(** X5.  [build_graph_instance] starts from a new graph and a new weights
    map each time: what it returns and what it leaves in the object do
    not depend on the graph and the weights stored before, and a second
    call on the same [y] changes nothing more. *)
Theorem build_graph_instance_starts_afresh y self old_graph old_weights :
  build_graph_instance y
    (set_coocurence_graph old_graph (set_weights old_weights self))
  = match graph_builder self y with
    | Ok _ => build_graph_instance y self
    | Raise e =>
        (Raise e, set_coocurence_graph old_graph (set_weights old_weights self))
    end
  ∧ build_graph_instance y (build_graph_instance y self).2
    = build_graph_instance y self.
Proof.
  rewrite !build_graph_instance_unfold. cbn.
  destruct (graph_builder self y) as [edge_map|e] eqn:Hmap; cbn.
  - by rewrite Hmap.
  - by rewrite Hmap.
Qed.

End Building.

(** ** fit_predict: what it asks of the solver and what it leaves behind *)

Section Predicting.
Import GraphToolCooccurenceClusterer.
Implicit Types (self : GraphToolCooccurenceClusterer.t) (y : LabelMatrix)
  (edge_map : EdgeMap).

(** [fit_predict] with the model holder's [fit] spelled out as its one
    solver request. *)
Lemma fit_predict_by_request `{GT : GraphTool} {FeatureMatrix}
    (X : FeatureMatrix) y self edge_map :
  graph_builder self y = Ok edge_map →
  fit_predict X y self
  = let graph := (built (shape y).2 edge_map).1 in
    let property_map := (built (shape y).2 edge_map).2 in
    let with_graph :=
      set_coocurence_graph (Some graph)
        (set_weights (Some property_map)
           (set_label_count (Some (shape y).2) self)) in
    match solve (fit_request (model self) graph property_map) with
    | Raise e => (Raise e, with_graph)
    | Ok state =>
        let fitted :=
          set_model (StochasticBlockModel.set__state (Some state) (model self))
            with_graph in
        match (StochasticBlockModel.communities (model fitted)).1 with
        | Raise e => (Raise e, fitted)
        | Ok communities =>
            (Ok (non_empty communities),
             set_model_count (Some (length (non_empty communities)))
               (set_label_sets (Some (non_empty communities)) fitted))
        end
    end.
Proof.
  intros Hmap. rewrite fit_predict_unfold, Hmap. cbv zeta.
  rewrite fit_unfold_request.
  destruct (solve _) as [state|e]; cbn; [done|]. by destruct self.
Qed.


(** X7.  With a falsy [weight_model] the weights of the edge map play no
    part in the clustering: two clusterers with the same model holder
    whose builders return maps with the same keys in the same order
    have the same outcome (the same groups or the same error) and end
    with the same graph and the same model holder. *)
Theorem fit_predict_unweighted_reads_keys_only `{GT : GraphTool} {FeatureMatrix}
    (X : FeatureMatrix) y self1 self2 edge_map1 edge_map2 :
  model self1 = model self2 →
  truthy (StochasticBlockModel.weight_model (model self1)) = false →
  graph_builder self1 y = Ok edge_map1 →
  graph_builder self2 y = Ok edge_map2 →
  edge_map1.*1 = edge_map2.*1 →
  (fit_predict X y self1).1 = (fit_predict X y self2).1
  ∧ model (fit_predict X y self1).2 = model (fit_predict X y self2).2
  ∧ coocurence_graph (fit_predict X y self1).2
    = coocurence_graph (fit_predict X y self2).2.
Proof.
  intros Hmodel Hfalsy Hmap1 Hmap2 Hkeys.
  rewrite (fit_predict_by_request X y self1 edge_map1 Hmap1).
  rewrite (fit_predict_by_request X y self2 edge_map2 Hmap2).
  cbv zeta.
  assert ((built (shape y).2 edge_map1).1 = (built (shape y).2 edge_map2).1)
    as Hgraph by (by apply edges_added_keys_only).
  assert (fit_request (model self1) (built (shape y).2 edge_map1).1
            (built (shape y).2 edge_map1).2
          = fit_request (model self2) (built (shape y).2 edge_map2).1
              (built (shape y).2 edge_map2).2) as Hrequest.
  { unfold fit_request. rewrite <-Hmodel, Hfalsy, Hgraph. done. }
  rewrite Hrequest, Hgraph, <-Hmodel.
  destruct (solve _) as [state|e]; cbn; [|done].
  by destruct (StochasticBlockModel.communities _) as [[communities|e] m'].
Qed.

(** X8.  A [fit_predict] that returns has gone through a graph builder
    and a solver that both returned, and every attribute it leaves is of
    this call: the model holder with the solver's state, the graph and
    weights built from the edge map, the column count, the returned
    groups and their number.  Nothing of an earlier call is left but the
    graph builder and the model configuration. *)
Theorem fit_predict_success_state `{GT : GraphTool} {FeatureMatrix}
    (X : FeatureMatrix) y self result self' :
  fit_predict X y self = (Ok result, self') →
  ∃ edge_map state,
    graph_builder self y = Ok edge_map
    ∧ solve (fit_request (model self) (built (shape y).2 edge_map).1
               (built (shape y).2 edge_map).2) = Ok state
    ∧ self' = {|
        graph_builder := graph_builder self;
        model := StochasticBlockModel.set__state (Some state) (model self);
        weights := Some (built (shape y).2 edge_map).2;
        coocurence_graph := Some (built (shape y).2 edge_map).1;
        label_count := Some (shape y).2;
        label_sets := Some result;
        model_count := Some (length result) |}.
Proof.
  destruct (graph_builder self y) as [edge_map|e] eqn:Hmap.
  - rewrite (fit_predict_by_request X y self edge_map Hmap). cbv zeta.
    destruct (solve _) as [state|e] eqn:Hsolve; [|done].
    cbn [model set_model].
    destruct (StochasticBlockModel.communities _) as [[communities|e] m'];
      [|done]. cbn [fst].
    intros [= <- <-]. by exists edge_map, state.
  - rewrite fit_predict_unfold, Hmap. done.
Qed.

(** X9.  [model_count] is the length of [label_sets] on a new clusterer
    (both are missing) and stays so through every [fit_predict] and every
    [build_graph_instance], whether the call returns or raises. *)
Theorem fit_predict_keeps_count `{GT : GraphTool} {FeatureMatrix}
    (X : FeatureMatrix) y self :
  counted self →
  counted (fit_predict X y self).2
  ∧ counted (build_graph_instance y self).2
  ∧ ∀ builder holder, counted (__init__ builder holder).
Proof.
  unfold counted. intros Hcounted. split; [|split; [|done]].
  - rewrite fit_predict_unfold. cbv zeta.
    destruct (graph_builder self y) as [edge_map|e]; [|done].
    destruct (StochasticBlockModel.fit _ _ (model self)) as [[[]|e] fitted_model];
      [|done]. cbn [fst snd model set_model].
    by destruct (StochasticBlockModel.communities fitted_model)
      as [[communities|e] m'].
  - rewrite build_graph_instance_unfold.
    by destruct (graph_builder self y).
Qed.

(** X10.  Whatever its outcome, [fit_predict] leaves the graph builder and
    the four configuration fields of the model holder as they were, and
    [label_count] holds the column count of [y], also after a call that
    raised. *)
Theorem fit_predict_frame `{GT : GraphTool} {FeatureMatrix}
    (X : FeatureMatrix) y self :
  graph_builder (fit_predict X y self).2 = graph_builder self
  ∧ configuration (model (fit_predict X y self).2) = configuration (model self)
  ∧ label_count (fit_predict X y self).2 = Some (shape y).2.
Proof.
  rewrite fit_predict_unfold. cbv zeta.
  destruct (graph_builder self y) as [edge_map|e]; [|done].
  rewrite fit_unfold. destruct (solve _) as [state|e]; cbn [store_fit fst snd].
  - cbn [model set_model].
    by destruct (StochasticBlockModel.communities _) as [[communities|e] m'].
  - done.
Qed.

(** X11.  When builder and solver return but reading the communities
    raises (the first level of an empty hierarchy, a block id that is no
    group), [fit_predict] raises that error after the model holder has
    taken the new state: graph, weights and fitted state are of this call,
    while [label_sets] and [model_count] are still those of before. *)
Theorem fit_predict_communities_error `{GT : GraphTool} {FeatureMatrix}
    (X : FeatureMatrix) y self edge_map state e :
  graph_builder self y = Ok edge_map →
  solve (fit_request (model self) (built (shape y).2 edge_map).1
           (built (shape y).2 edge_map).2) = Ok state →
  (StochasticBlockModel.communities
     (StochasticBlockModel.set__state (Some state) (model self))).1 = Raise e →
  fit_predict X y self
  = (Raise e,
     {| graph_builder := graph_builder self;
        model := StochasticBlockModel.set__state (Some state) (model self);
        weights := Some (built (shape y).2 edge_map).2;
        coocurence_graph := Some (built (shape y).2 edge_map).1;
        label_count := Some (shape y).2;
        label_sets := label_sets self;
        model_count := model_count self |}).
Proof.
  intros Hmap Hsolve Hraise.
  rewrite (fit_predict_by_request X y self edge_map Hmap). cbv zeta.
  rewrite Hsolve. cbn [model set_model]. by rewrite Hraise.
Qed.

End Predicting.

(** ** The overlapping branch of communities *)

Section Overlapping.
Implicit Types (groups : list (list nat)) (ids : list nat)
  (membership : list (list nat)).

Lemma place_in_each_in_range ids v groups :
  Forall (λ b, b < length groups) ids →
  ∃ groups',
    place_in_each ids v groups = Ok groups'
    ∧ length groups' = length groups
    ∧ ∀ b g', groups' !! b = Some g' →
        ∃ g, groups !! b = Some g
             ∧ ∀ u, u ∈ g' ↔ u ∈ g ∨ (u = v ∧ b ∈ ids).
Proof.
  revert groups. induction ids as [|c rest IH]; intros groups Hall.
  - exists groups. split; [done|]. split; [done|].
    intros b g' Hb. exists g'. split; [done|]. intros u.
    rewrite elem_of_nil. tauto.
  - apply Forall_cons in Hall as [Hc Hrest]. cbn [place_in_each].
    rewrite append_member_in_range by done.
    destruct (IH (imap (λ i g, g ++ if decide (c = i) then [v] else []) groups))
      as (groups' & Hrun & Hlen & Hmem); [by rewrite length_imap|].
    exists groups'. split; [done|]. split; [by rewrite Hlen, length_imap|].
    intros b g' Hb. destruct (Hmem b g' Hb) as (g1 & Hg1 & Hin).
    rewrite list_lookup_imap in Hg1.
    destruct (groups !! b) as [g|] eqn:Hg; [|done].
    injection Hg1 as <-. exists g. split; [done|]. intros u.
    rewrite Hin, elem_of_app, elem_of_cons.
    destruct (decide (c = b)) as [->|Hne].
    + rewrite list_elem_of_singleton. tauto.
    + rewrite elem_of_nil. split; [tauto|].
      intros [?|[? [?|?]]]; [tauto|congruence|tauto].
Qed.

Lemma place_overlapping_in_range membership v0 groups :
  Forall (Forall (λ b, b < length groups)) membership →
  ∃ groups',
    place_overlapping membership v0 groups = Ok groups'
    ∧ length groups' = length groups
    ∧ ∀ b g', groups' !! b = Some g' →
        ∃ g, groups !! b = Some g
             ∧ ∀ u, u ∈ g'
                    ↔ u ∈ g ∨ (v0 ≤ u ∧ ∃ ids, membership !! (u - v0) = Some ids
                                              ∧ b ∈ ids).
Proof.
  revert v0 groups. induction membership as [|ids rest IH]; intros v0 groups Hall.
  - exists groups. split; [done|]. split; [done|].
    intros b g' Hb. exists g'. split; [done|]. intros u. split; [tauto|].
    intros [?|[_ (ids & Hids & _)]]; [done|]. by rewrite lookup_nil in Hids.
  - apply Forall_cons in Hall as [Hids Hrest]. cbn [place_overlapping].
    destruct (place_in_each_in_range ids v0 groups Hids)
      as (groups1 & -> & Hlen1 & Hmem1).
    destruct (IH (S v0) groups1) as (groups' & Hrun & Hlen & Hmem);
      [by rewrite Hlen1|].
    exists groups'. split; [done|]. split; [by rewrite Hlen|].
    intros b g' Hb. destruct (Hmem b g' Hb) as (g1 & Hg1 & Hin1).
    destruct (Hmem1 b g1 Hg1) as (g & Hg & Hin). exists g. split; [done|].
    intros u. rewrite Hin1, Hin. split.
    + intros [[?|[-> Hb']]|[Hle (ids' & Hids' & Hb')]].
      * by left.
      * right. split; [lia|]. exists ids.
        replace (v0 - v0) with 0 by lia. done.
      * right. split; [lia|]. exists ids'.
        by replace (u - v0) with (S (u - S v0)) by lia.
    + intros [?|[Hle (ids' & Hids' & Hb')]]; [by left; left|].
      destruct (decide (u = v0)) as [->|Hne].
      * left. right. replace (v0 - v0) with 0 in Hids' by lia.
        injection Hids' as ->. done.
      * right. split; [lia|]. exists ids'.
        by replace (u - v0) with (S (u - S v0)) in Hids' by lia.
Qed.

(** X12.  With [allow_overlap] set, on a fitted model whose lowest level
    carries overlap blocks, [communities()] reads component 0 of
    [get_overlap_blocks()] and the block count of the same level (entry 0
    of the hierarchy of a nested model); the three edge vectors and
    [get_blocks] are not used.  With block ids below B the result has B
    groups, a vertex is in group [b] exactly when [b] is among its blocks,
    a vertex without block is in no group, and the object is unchanged. *)
Theorem communities_overlapping self level overlap_blocks :
  fitted_with self level →
  StochasticBlockModel.allow_overlap self = true →
  get_overlap_blocks level = Some overlap_blocks →
  Forall (Forall (λ b, b < get_B level)) (bv overlap_blocks) →
  ∃ groups,
    StochasticBlockModel.communities self = (Ok groups, self)
    ∧ _overlapping_membership_to_list_of_communities
        (bv overlap_blocks) (get_B level) = Ok groups
    ∧ length groups = get_B level
    ∧ (∀ b g, groups !! b = Some g →
         ∀ v, v ∈ g ↔ ∃ ids, bv overlap_blocks !! v = Some ids ∧ b ∈ ids)
    ∧ (∀ v, bv overlap_blocks !! v = Some [] →
         ∀ b g, groups !! b = Some g → v ∉ g).
Proof.
  intros Hfit Hoverlap Hblocks Hrange.
  rewrite (communities_of_fitted _ _ Hfit), Hoverlap, Hblocks.
  unfold _overlapping_membership_to_list_of_communities.
  destruct (place_overlapping_in_range (bv overlap_blocks) 0
              (replicate (get_B level) []))
    as (groups & -> & Hlen & Hmem); [by rewrite length_replicate|].
  rewrite length_replicate in Hlen.
  assert (∀ b g, groups !! b = Some g →
            ∀ v, v ∈ g ↔ ∃ ids, bv overlap_blocks !! v = Some ids ∧ b ∈ ids)
    as Hgroups.
  { intros b g Hb v. destruct (Hmem b g Hb) as (g0 & Hg0 & Hin).
    apply lookup_replicate in Hg0 as [-> _]. rewrite Hin, elem_of_nil.
    replace (v - 0) with v by lia. split.
    - by intros [[]|[_ ?]].
    - intros ?. right. split; [lia|done]. }
  exists groups. split; [done|]. split; [done|]. split; [done|].
  split; [done|].
  intros v Hv b g Hb [ids [Hids Hin]]%(Hgroups b g Hb).
  rewrite Hv in Hids. injection Hids as <-. by apply elem_of_nil in Hin.
Qed.

End Overlapping.

(** ** fit_predict on a model without overlap *)

Section Partition.
Import GraphToolCooccurenceClusterer.

Lemma concat_non_empty (communities : list (list nat)) :
  concat (non_empty communities) = concat communities.
Proof.
  unfold non_empty. induction communities as [|[|v g] rest IH]; [done| |].
  - rewrite filter_cons_False by (cbn; lia). done.
  - rewrite filter_cons_True by (cbn; lia). cbn. by rewrite IH.
Qed.

(** X13.  Without overlap, when [fit_predict] returns and the lowest level
    of the fitted state gives every vertex a block id below B, the
    returned groups are a partition of the vertex indices: none is empty,
    together they hold every index from 0 up to the length of the block
    vector exactly once, and there are at most B of them. *)
Theorem fit_predict_partitions_labels `{GT : GraphTool} {FeatureMatrix}
    (X : FeatureMatrix) (y : LabelMatrix) self result self' level :
  fit_predict X y self = (Ok result, self') →
  fitted_with (model self') level →
  StochasticBlockModel.allow_overlap (model self') = false →
  Forall (λ b, b < get_B level) (get_blocks level) →
  concat result ≡ₚ seq 0 (length (get_blocks level))
  ∧ Forall (λ community, community ≠ []) result
  ∧ length result ≤ get_B level
  ∧ length result ≤ length (get_blocks level).
Proof.
  rewrite fit_predict_unfold. cbv zeta.
  destruct (graph_builder self y) as [edge_map|e]; [|done].
  destruct (StochasticBlockModel.fit _ _ (model self)) as [[[]|e] fitted_model];
    [|done]. cbn [fst snd model set_model].
  destruct (StochasticBlockModel.communities fitted_model) as [[raw|e] m']
    eqn:Hcomm; [|done]. cbn [fst].
  intros [= <- <-]. cbn [model set_model_count set_label_sets set_model].
  intros Hfit Hno Hrange.
  rewrite (communities_disjoint_fit _ _ Hfit Hno Hrange) in Hcomm.
  injection Hcomm as <- _.
  assert (concat (non_empty (map (vertices_of_block (get_blocks level) 0)
                               (seq 0 (get_B level))))
          ≡ₚ seq 0 (length (get_blocks level))) as Hperm.
  { by rewrite concat_non_empty, vertices_of_block_partition. }
  assert (Forall (λ community : list nat, community ≠ [])
            (non_empty (map (vertices_of_block (get_blocks level) 0)
                          (seq 0 (get_B level))))) as Hne.
  { apply Forall_forall. intros community [Hlen _]%list_elem_of_filter.
    intros ->. cbn in Hlen. lia. }
  split; [done|]. split; [done|]. split.
  - etrans; [apply length_filter|]. by rewrite length_map, length_seq.
  - apply Permutation_length in Hperm. rewrite length_seq in Hperm.
    rewrite <-Hperm. clear Hperm.
    induction Hne as [|community rest Hc _ IH]; [done|].
    cbn. rewrite length_app. destruct community; [done|]. cbn. lia.
Qed.

End Partition.

(** ** The further properties at the sample objects *)

Section MoreSamples.
Import GraphToolCooccurenceClusterer.

Lemma fit_overwrites_state_witness :
  @StochasticBlockModel.fit (constant_solver (Raise (LibraryError 1)))
    sample_graph ∅ sample_fitted_flat
  = (Raise (LibraryError 1), sample_fitted_flat).
Proof.
  apply (proj2 (@fit_overwrites_state (constant_solver (Raise (LibraryError 1)))
                  (sample_model PyNone) (Some (FlatState sample_level))
                  sample_graph ∅) (LibraryError 1)).
  reflexivity.
Defined.

Lemma build_graph_instance_frame_witness :
  build_graph_instance sample_y sample_failing_clusterer
  = (Raise (LibraryError 2), sample_failing_clusterer).
Proof.
  apply (proj1 (build_graph_instance_frame sample_y sample_failing_clusterer)
           (LibraryError 2)).
  reflexivity.
Defined.

Lemma build_graph_instance_weights_follow_edges_witness :
  ∃ g property_map,
    (build_graph_instance sample_y sample_wide_clusterer).1 = Ok g
    ∧ coocurence_graph (build_graph_instance sample_y sample_wide_clusterer).2
      = Some g
    ∧ weights (build_graph_instance sample_y sample_wide_clusterer).2
      = Some property_map
    ∧ directed g = false
    ∧ length (edges g) = 1
    ∧ (∀ i, edges g !! i = fst <$> sample_wide_edge_map !! i)
    ∧ (∀ i, property_map !! i = snd <$> sample_wide_edge_map !! i)
    ∧ (∀ i, is_Some (property_map !! i) ↔ i < length (edges g)).
Proof.
  apply (build_graph_instance_weights_follow_edges sample_y
           sample_wide_clusterer sample_wide_edge_map).
  reflexivity.
Defined.

Lemma build_graph_instance_vertex_count_witness :
  ∃ g,
    (build_graph_instance sample_y sample_wide_clusterer).1 = Ok g
    ∧ num_vertices g = 4 `max` 6
    ∧ 4 ≤ num_vertices g
    ∧ Forall (λ edge, edge.1 < num_vertices g ∧ edge.2 < num_vertices g)
        (edges g)
    ∧ (6 ≤ 4 → num_vertices g = 4).
Proof.
  apply (build_graph_instance_vertex_count sample_y sample_wide_clusterer
           sample_wide_edge_map).
  reflexivity.
Defined.


Lemma fit_predict_unweighted_reads_keys_only_witness :
  (@fit_predict (constant_solver (Ok (FlatState sample_level))) unit tt
     sample_y (sample_clusterer PyNone)).1
  = (@fit_predict (constant_solver (Ok (FlatState sample_level))) unit tt
       sample_y sample_reweighted_clusterer).1
  ∧ model (@fit_predict (constant_solver (Ok (FlatState sample_level))) unit tt
             sample_y (sample_clusterer PyNone)).2
    = model (@fit_predict (constant_solver (Ok (FlatState sample_level))) unit
               tt sample_y sample_reweighted_clusterer).2
  ∧ coocurence_graph
      (@fit_predict (constant_solver (Ok (FlatState sample_level))) unit tt
         sample_y (sample_clusterer PyNone)).2
    = coocurence_graph
        (@fit_predict (constant_solver (Ok (FlatState sample_level))) unit tt
           sample_y sample_reweighted_clusterer).2.
Proof.
  apply (@fit_predict_unweighted_reads_keys_only
           (constant_solver (Ok (FlatState sample_level))) unit tt sample_y
           (sample_clusterer PyNone) sample_reweighted_clusterer
           sample_edge_map sample_reweighted_edge_map);
    reflexivity.
Defined.

Lemma fit_predict_success_state_witness :
  ∃ edge_map state,
    graph_builder (sample_clusterer PyNone) sample_y = Ok edge_map
    ∧ @solve (constant_solver (Ok (FlatState sample_level)))
        (fit_request (model (sample_clusterer PyNone)) (built 4 edge_map).1
           (built 4 edge_map).2) = Ok state
    ∧ (@fit_predict (constant_solver (Ok (FlatState sample_level))) unit tt
         sample_y (sample_clusterer PyNone)).2
      = {| graph_builder := graph_builder (sample_clusterer PyNone);
           model := StochasticBlockModel.set__state (Some state)
                      (model (sample_clusterer PyNone));
           weights := Some (built 4 edge_map).2;
           coocurence_graph := Some (built 4 edge_map).1;
           label_count := Some 4;
           label_sets := Some [[0; 1]; [2; 3]];
           model_count := Some (length [[0; 1]; [2; 3]]) |}.
Proof.
  apply (@fit_predict_success_state
           (constant_solver (Ok (FlatState sample_level))) unit tt sample_y
           (sample_clusterer PyNone) [[0; 1]; [2; 3]]).
  vm_compute. reflexivity.
Defined.

Lemma fit_predict_keeps_count_witness :
  counted (@fit_predict (constant_solver (Ok (FlatState sample_level))) unit tt
             sample_y (sample_clusterer PyNone)).2
  ∧ counted (build_graph_instance sample_y (sample_clusterer PyNone)).2
  ∧ ∀ builder holder, counted (__init__ builder holder).
Proof.
  apply (@fit_predict_keeps_count
           (constant_solver (Ok (FlatState sample_level))) unit tt sample_y
           (sample_clusterer PyNone)).
  reflexivity.
Defined.

Lemma fit_predict_communities_error_witness :
  @fit_predict (constant_solver (Ok sample_empty_hierarchy)) unit tt sample_y
    sample_nested_clusterer
  = (Raise IndexError,
     {| graph_builder := graph_builder sample_nested_clusterer;
        model := StochasticBlockModel.set__state (Some sample_empty_hierarchy)
                   (model sample_nested_clusterer);
        weights := Some (built 4 sample_edge_map).2;
        coocurence_graph := Some (built 4 sample_edge_map).1;
        label_count := Some 4;
        label_sets := None;
        model_count := None |}).
Proof.
  apply (@fit_predict_communities_error
           (constant_solver (Ok sample_empty_hierarchy)) unit tt sample_y
           sample_nested_clusterer sample_edge_map sample_empty_hierarchy
           IndexError);
    reflexivity.
Defined.

Lemma communities_overlapping_witness :
  ∃ groups,
    StochasticBlockModel.communities sample_fitted_overlap
    = (Ok groups, sample_fitted_overlap)
    ∧ _overlapping_membership_to_list_of_communities [[0; 1]; [1]; []] 2
      = Ok groups
    ∧ length groups = 2
    ∧ (∀ b g, groups !! b = Some g →
         ∀ v, v ∈ g ↔ ∃ ids, [[0; 1]; [1]; []] !! v = Some ids ∧ b ∈ ids)
    ∧ (∀ v, [[0; 1]; [1]; []] !! v = Some [] →
         ∀ b g, groups !! b = Some g → v ∉ g).
Proof.
  apply (communities_overlapping sample_fitted_overlap sample_overlap_level
           sample_overlap_blocks); [reflexivity|reflexivity|reflexivity|].
  repeat (constructor; [repeat (constructor; [cbn; lia|]); constructor|]).
  constructor.
Defined.

Lemma fit_predict_partitions_labels_witness :
  concat [[0; 1]; [2; 3]] ≡ₚ seq 0 4
  ∧ Forall (λ community : list nat, community ≠ []) [[0; 1]; [2; 3]]
  ∧ length [[0; 1]; [2; 3]] ≤ 3
  ∧ length [[0; 1]; [2; 3]] ≤ 4.
Proof.
  apply (@fit_predict_partitions_labels
           (constant_solver (Ok (FlatState sample_level))) unit tt sample_y
           (sample_clusterer PyNone) [[0; 1]; [2; 3]]
           (@fit_predict (constant_solver (Ok (FlatState sample_level))) unit tt
              sample_y (sample_clusterer PyNone)).2
           sample_level).
  - vm_compute. reflexivity.
  - reflexivity.
  - reflexivity.
  - repeat (constructor; [cbn; lia|]). constructor.
Defined.

End MoreSamples.
